(** * HelloWorld.cpp: the [HelloClass] example of luajit-ffipp

    A shallow embedding of [examples/HelloWorld/HelloWorld.cpp] and the
    properties of its constructors and of its three printing functions.

    - [int64_t] and [int32_t] values are integers ([Z]) with their ranges.
    - [double] values are IEEE 754 binary64 values ([spec_float]).
    - [std::cout] is a stream with a buffer and a device behind it.
    - A member function is a computation over the object it is called on
      and [std::cout]; a static function is a computation over [std::cout]
      alone.  A constructor runs on the storage the caller has allocated for
      the object (this is how a foreign caller invokes it: allocate, then
      call the exported constructor on the storage), so a field that the
      constructor does not assign keeps what the storage held.
    - The file defines no subclass: a virtual call on a [HelloClass] object
      runs the member function defined here. *)

From Stdlib Require Import ZArith Lia Bool List.
From Stdlib Require Import Ascii String DecimalString.
From Stdlib Require DecimalPos DecimalZ.
From Stdlib Require Import SpecFloat.
Import ListNotations.

Local Open Scope string_scope.
Local Open Scope Z_scope.

(** ** Machine integers and doubles *)

Module Int.

Definition min_int64 : Z := - 2 ^ 63.
Definition max_int64 : Z := 2 ^ 63 - 1.
Definition min_int32 : Z := - 2 ^ 31.
Definition max_int32 : Z := 2 ^ 31 - 1.

Definition is_int64 (z : Z) : bool := (min_int64 <=? z) && (z <=? max_int64).
Definition is_int32 (z : Z) : bool := (min_int32 <=? z) && (z <=? max_int32).

(** The decimal text of an integer, as [operator<<] writes it with the
    stream's default flags: an optional minus sign, then the digits. *)
Definition to_string (z : Z) : string := NilZero.string_of_int (Z.to_int z).

End Int.

(** ** Text helpers *)

Module Text.

(** The line feed character, ['\n'] in the source. *)
Definition LF : ascii := ascii_of_nat 10.
(** The terminator of a C string, ['\0']. *)
Definition NUL : ascii := ascii_of_nat 0.

Definition newline : string := String LF "".

Fixpoint zeros (n : nat) : string :=
  match n with
  | O => ""
  | S n' => String "0" (zeros n')
  end.

(** [split_at n s]: the first [n] characters of [s], and the rest. *)
Fixpoint split_at (n : nat) (s : string) : string * string :=
  match n, s with
  | S n', String c r => let '(a, b) := split_at n' r in (String c a, b)
  | _, _ => ("", s)
  end.

(** Removes the zeros that end [s]. *)
Fixpoint strip_zeros (s : string) : string :=
  match s with
  | "" => ""
  | String c r =>
      match strip_zeros r with
      | "" => if Ascii.eqb c "0" then "" else String c ""
      | r' => String c r'
      end
  end.

(** An integer part and the digits after the point; the zeros that end the
    fraction go, and so does the point when no digit is left after it. *)
Definition with_point (int_part frac_part : string) : string :=
  match strip_zeros frac_part with
  | "" => int_part
  | f => int_part ++ "." ++ f
  end.

End Text.

Module Double.

(** binary64: 53 bits of precision, exponents below 1024. *)
Definition prec : Z := 53.
Definition emax : Z := 1024.

Definition t : Type := spec_float.

Definition is_double (x : t) : bool := valid_binary prec emax x.

(** Conversion of an integer to [double] (round to nearest even). *)
Definition of_int (z : Z) : t := binary_normalize prec emax z 0 false.

(** *** The text of a double

    [operator<<(double)] with the stream's default flags and precision
    converts as [printf] does with [%g] and precision 6 (C++ [locale.nm.put];
    C [fprintf], conversion [g]): with [X] the decimal exponent of the value
    rounded to [P] significant digits, the fixed style is used when
    [-4 <= X < P] and the exponent style otherwise, and the zeros that end
    the fraction are removed.  The decimal digits are those of the exact
    value, rounded to nearest, ties to even. *)

Definition precision : Z := 6.

(** The value [m * 2^e] as a fraction [(num, den)]. *)
Definition fraction (m : positive) (e : Z) : Z * Z :=
  if 0 <=? e then (Zpos m * 2 ^ e, 1) else (Zpos m, 2 ^ (- e)).

(** From [den * 10^X <= num], the largest such [X]. *)
Fixpoint exp10_up (fuel : nat) (num den X : Z) : Z :=
  match fuel with
  | O => X
  | S fuel' =>
      if den * 10 <=? num then exp10_up fuel' num (den * 10) (X + 1) else X
  end.

(** From [num < den * 10^(X+1)], the largest [X] with [den * 10^X <= num]. *)
Fixpoint exp10_down (fuel : nat) (num den X : Z) : Z :=
  match fuel with
  | O => X
  | S fuel' =>
      if num <? den then exp10_down fuel' (num * 10) den (X - 1) else X
  end.

(** The decimal exponent of [num / den]: [10^X <= num / den < 10^(X+1)]. *)
Definition exp10 (num den : Z) : Z :=
  if den <=? num
  then exp10_up (Z.to_nat (Z.log2 num + 1)) num den 0
  else exp10_down (Z.to_nat (Z.log2 den + 1)) num den 0.

(** [num / den * 10^s] as a fraction. *)
Definition scale (num den s : Z) : Z * Z :=
  if 0 <=? s then (num * 10 ^ s, den) else (num, den * 10 ^ (- s)).

(** The integer nearest to [num / den], ties to even. *)
Definition round_half_even (num den : Z) : Z :=
  let q := num / den in
  let r := num mod den in
  match 2 * r ?= den with
  | Lt => q
  | Gt => q + 1
  | Eq => if Z.even q then q else q + 1
  end.

(** [num / den] rounded to [P] significant digits: the digits, as an
    integer of [P] decimal digits, and the decimal exponent of the first. *)
Definition decimal (P num den : Z) : Z * Z :=
  let X := exp10 num den in
  let '(n, d) := scale num den (P - 1 - X) in
  let D := round_half_even n d in
  if 10 ^ P <=? D then (10 ^ (P - 1), X + 1) else (D, X).

(** Fixed style: [ddd.ddd]. *)
Definition fixed (digits : string) (X : Z) : string :=
  if 0 <=? X
  then let '(i, f) := Text.split_at (Z.to_nat (X + 1)) digits in
       Text.with_point i f
  else Text.with_point "0" (Text.zeros (Z.to_nat (- X - 1)) ++ digits).

(** The exponent part: a sign and at least two digits. *)
Definition exponent_part (X : Z) : string :=
  (if X <? 0 then "e-" else "e+")
  ++ (if Z.abs X <? 10 then "0" else "")
  ++ Int.to_string (Z.abs X).

(** Exponent style: [d.ddde+XX]. *)
Definition scientific (digits : string) (X : Z) : string :=
  let '(i, f) := Text.split_at 1 digits in
  Text.with_point i f ++ exponent_part X.

(** The [%g] style for the positive value [num / den]. *)
Definition general (P num den : Z) : string :=
  let '(D, X) := decimal P num den in
  let digits := Int.to_string D in
  if (-4 <=? X) && (X <? P) then fixed digits X else scientific digits X.

Definition sign_text (s : bool) : string := if s then "-" else "".

Definition to_string (x : t) : string :=
  match x with
  | S754_zero s => sign_text s ++ "0"
  | S754_infinity s => sign_text s ++ "inf"
  | S754_nan => "nan"
  | S754_finite s m e =>
      let '(num, den) := fraction m e in
      sign_text s ++ general precision num den
  end.

End Double.

(** ** Computations that may be undefined *)

Inductive outcome (A : Type) : Type :=
| Done (a : A)
| Undefined.
Arguments Done {A} a.
Arguments Undefined {A}.

(** A computation over a state [S]: it ends with a value and a new state,
    or its behaviour is undefined. *)
Definition comp (S A : Type) : Type := S -> outcome (A * S).

Definition ret {S A : Type} (a : A) : comp S A := fun s => Done (a, s).

Definition bind {S A B : Type} (c : comp S A) (k : A -> comp S B) : comp S B :=
  fun s => match c s with
           | Done (a, s') => k a s'
           | Undefined => Undefined
           end.

Definition undefined {S A : Type} : comp S A := fun _ => Undefined.

Definition gets {S A : Type} (f : S -> A) : comp S A := fun s => Done (f s, s).

Definition modify {S : Type} (f : S -> S) : comp S unit := fun s => Done (tt, f s).

Declare Scope comp_scope.
Delimit Scope comp_scope with comp.
Notation "x <- c ;; k" := (bind c (fun x => k))
  (at level 61, c at next level, right associativity) : comp_scope.
Notation "c ;; k" := (bind c (fun _ => k))
  (at level 61, right associativity) : comp_scope.
Local Open Scope comp_scope.

(** ** The output stream *)

Module Ostream.

(** [device]: the characters that have reached standard output;
    [buffer]: the characters inserted since the last flush. *)
Record t : Type := mk {
  device : string;
  buffer : string
}.

(** Every character inserted so far, flushed or not. *)
Definition written (os : t) : string := device os ++ buffer os.

Definition insert (s : string) (os : t) : t :=
  {| device := device os; buffer := buffer os ++ s |}.

Definition flushed (os : t) : t :=
  {| device := device os ++ buffer os; buffer := "" |}.

(** The initial stream: nothing written. *)
Definition empty : t := {| device := ""; buffer := "" |}.

End Ostream.


(** ** C strings *)

Module CString.

(** A [const char*]: the null pointer, or a pointer into memory; [bytes] are
    the characters stored from the pointed address to the end of the
    allocation. *)
Inductive const_char_ptr : Type :=
| nullptr
| ptr_to (bytes : string).

(** The characters before the first [NUL].  [None] when the allocation ends
    before any [NUL]: reading goes out of bounds. *)
Fixpoint read (bytes : string) : option string :=
  match bytes with
  | "" => None
  | String c rest =>
      if Ascii.eqb c Text.NUL then Some ""
      else option_map (String c) (read rest)
  end.

(** [t] has no [NUL] in it: it is the text of a C string. *)
Fixpoint no_nul (t : string) : bool :=
  match t with
  | "" => true
  | String c rest => negb (Ascii.eqb c Text.NUL) && no_nul rest
  end.

(** The memory holds a [NUL]. *)
Fixpoint terminated (bytes : string) : bool :=
  match bytes with
  | "" => false
  | String c rest => Ascii.eqb c Text.NUL || terminated rest
  end.

(** A pointer to a null-terminated string. *)
Definition valid (p : const_char_ptr) : bool :=
  match p with
  | nullptr => false
  | ptr_to bytes => terminated bytes
  end.

(** The memory of the string literal for the text [t]. *)
Definition literal (t : string) : const_char_ptr :=
  ptr_to (t ++ String Text.NUL "").

End CString.

(** ** Insertion in [std::cout] *)

Module Cout.

(** A computation that writes to the stream. *)
Definition io (A : Type) : Type := comp Ostream.t A.

(** [os << "text"] for a string literal. *)
Definition put (s : string) : io unit := modify (Ostream.insert s).

(** [os << z] for an [int64_t] or an [int32_t]. *)
Definition put_int (z : Z) : io unit := put (Int.to_string z).

(** [os << x] for a [double]. *)
Definition put_double (x : Double.t) : io unit := put (Double.to_string x).

(** [os << p] for a [const char*]: the characters up to the terminator.
    The behaviour is undefined for a null pointer, and when the memory has
    no terminator. *)
Definition put_cstr (p : CString.const_char_ptr) : io unit :=
  match p with
  | CString.nullptr => undefined
  | CString.ptr_to bytes =>
      match CString.read bytes with
      | Some t => put t
      | None => undefined
      end
  end.

Definition flush : io unit := modify Ostream.flushed.

(** [os << std::endl]: a line feed, then a flush. *)
Definition endl : io unit := put Text.newline ;; flush.

End Cout.

(** ** The class *)

Module HelloClass.

(** The object: its three public fields and the private one. *)
Record t : Type := mk {
  one : Z;            (* int64_t *)
  two : Z;            (* int32_t *)
  three : Double.t;   (* double *)
  thisIsPrivate : Z   (* int32_t *)
}.

(** Every field holds a value of its type. *)
Definition wf (h : t) : bool :=
  Int.is_int64 (one h) && Int.is_int32 (two h)
  && Double.is_double (three h) && Int.is_int32 (thisIsPrivate h).

Definition set_one (v : Z) (h : t) : t :=
  {| one := v; two := two h; three := three h;
     thisIsPrivate := thisIsPrivate h |}.
Definition set_two (v : Z) (h : t) : t :=
  {| one := one h; two := v; three := three h;
     thisIsPrivate := thisIsPrivate h |}.
Definition set_three (v : Double.t) (h : t) : t :=
  {| one := one h; two := two h; three := v;
     thisIsPrivate := thisIsPrivate h |}.
Definition set_thisIsPrivate (v : Z) (h : t) : t :=
  {| one := one h; two := two h; three := three h;
     thisIsPrivate := v |}.

(** What a member function runs on: the object behind [this], and
    [std::cout]. *)
Record world : Type := mkWorld {
  this : t;
  cout : Ostream.t
}.

Definition method (A : Type) : Type := comp world A.

(** [this->field = v]. *)
Definition assign (set : t -> t) : method unit :=
  modify (fun w => {| this := set (this w); cout := cout w |}).

(** Reading a field of [this]. *)
Definition field {A : Type} (get : t -> A) : method A :=
  gets (fun w => get (this w)).

(** A computation on [std::cout], run from a member function. *)
Definition on_cout {A : Type} (c : Cout.io A) : method A :=
  fun w => match c (cout w) with
           | Done (a, os) => Done (a, {| this := this w; cout := os |})
           | Undefined => Undefined
           end.

(** [HelloClass::HelloClass()] *)
Definition ctor : method unit :=
  assign (set_one 1) ;;
  assign (set_two 2) ;;
  assign (set_three (Double.of_int 3)) ;;
  assign (set_thisIsPrivate 4).

(** [HelloClass::~HelloClass()] *)
Definition dtor : method unit := ret tt.

(** [HelloClass::HelloClass(int64_t one, int32_t two)] *)
Definition ctor2 (one : Z) (two : Z) : method unit :=
  assign (set_one one) ;;
  assign (set_two two).

(** [HelloClass::HelloClass(int64_t one, int32_t two, double three)] *)
Definition ctor3 (one : Z) (two : Z) (three : Double.t) : method unit :=
  assign (set_one one) ;;
  assign (set_two two) ;;
  assign (set_three three).

(** [void HelloClass::SayHello()] *)
Definition SayHello : method unit :=
  on_cout (Cout.put ("Hello, from HelloClass with" ++ Text.newline ++ "one: ")) ;;
  v1 <- field one ;;
  on_cout (Cout.put_int v1) ;;
  on_cout (Cout.put ", two: ") ;;
  v2 <- field two ;;
  on_cout (Cout.put_int v2) ;;
  on_cout (Cout.put ", and three: ") ;;
  v3 <- field three ;;
  on_cout (Cout.put_double v3) ;;
  on_cout Cout.endl.

(** [void HelloClass::Say(const char* value)] *)
Definition Say (value : CString.const_char_ptr) : method unit :=
  on_cout (Cout.put_cstr value) ;;
  on_cout Cout.endl.

(** [static void HelloClass::StaticHello()]: no [this]. *)
Definition StaticHello : Cout.io unit :=
  Cout.put "Hello, from HelloClass::StaticHello!" ;;
  Cout.endl.

(** The characters [SayHello] inserts, in the order of its insertions. *)
Definition greeting (h : t) : string :=
  ("Hello, from HelloClass with" ++ Text.newline ++ "one: ")
  ++ Int.to_string (one h)
  ++ ", two: "
  ++ Int.to_string (two h)
  ++ ", and three: "
  ++ Double.to_string (three h)
  ++ Text.newline.

(** *** Sequences of calls on one object *)

Inductive call : Type :=
| CallSayHello
| CallSay (value : CString.const_char_ptr)
| CallStaticHello.

Definition valid_call (c : call) : bool :=
  match c with
  | CallSay value => CString.valid value
  | _ => true
  end.

Definition run_call (c : call) : method unit :=
  match c with
  | CallSayHello => SayHello
  | CallSay value => Say value
  | CallStaticHello => on_cout StaticHello
  end.

Fixpoint run (cs : list call) : method unit :=
  match cs with
  | [] => ret tt
  | c :: cs' => run_call c ;; run cs'
  end.

End HelloClass.

(** ** Vocabulary for the properties *)

Module Chars.

(** Every character of [s] satisfies [P]. *)
Fixpoint all (P : ascii -> bool) (s : string) : bool :=
  match s with
  | "" => true
  | String c r => P c && all P r
  end.

Fixpoint mem (c : ascii) (s : string) : bool :=
  match s with
  | "" => false
  | String x r => Ascii.eqb c x || mem c r
  end.

(** The characters a number is written with: digits, signs, the point, the
    exponent letter, and the letters of [inf] and [nan]. *)
Definition numeric (c : ascii) : bool := mem c "0123456789-+.einfa".

(** [x] is not the character [c]. *)
Definition other_than (c x : ascii) : bool := negb (Ascii.eqb x c).

(** The character of the decimal digit [r]. *)
Definition digit (r : Z) : ascii := ascii_of_nat (48 + Z.to_nat r).

End Chars.

Module Trace.

(** The text a call writes on an object with fields [h]; nothing for a
    [Say] whose pointer cannot be read. *)
Definition call_text (h : HelloClass.t) (c : HelloClass.call) : string :=
  match c with
  | HelloClass.CallSayHello => HelloClass.greeting h
  | HelloClass.CallSay CString.nullptr => ""
  | HelloClass.CallSay (CString.ptr_to bytes) =>
      match CString.read bytes with
      | Some t => t ++ Text.newline
      | None => ""
      end
  | HelloClass.CallStaticHello =>
      "Hello, from HelloClass::StaticHello!" ++ Text.newline
  end.

(** The texts of the calls, in the order of the calls. *)
Fixpoint text (h : HelloClass.t) (cs : list HelloClass.call) : string :=
  match cs with
  | [] => ""
  | c :: cs' => call_text h c ++ text h cs'
  end.

End Trace.

Module Whole.

(** The double [x] holds the integer [k]: it is finite, of the sign of
    [k], and its value [m * 2^e] is [|k|]. *)
Definition holds (x : Double.t) (k : Z) : bool :=
  match x with
  | S754_finite s m e =>
      let '(num, den) := Double.fraction m e in
      (num =? Z.abs k * den) && Bool.eqb s (k <? 0)
  | _ => false
  end.

End Whole.

(** * Properties *)

(** ** Strings and the stream *)

Lemma append_assoc (a b c : string) : (a ++ b) ++ c = a ++ (b ++ c).
Proof.
  induction a as [|x a IH]; simpl.
  - reflexivity.
  - now rewrite IH.
Qed.

Lemma append_empty_r (a : string) : a ++ "" = a.
Proof.
  induction a as [|x a IH]; simpl; [reflexivity | now rewrite IH].
Qed.

Lemma insert_insert (a b : string) (os : Ostream.t) :
  Ostream.insert b (Ostream.insert a os) = Ostream.insert (a ++ b) os.
Proof.
  unfold Ostream.insert; simpl. now rewrite append_assoc.
Qed.

Lemma flushed_insert (a : string) (os : Ostream.t) :
  Ostream.flushed (Ostream.insert a os)
  = {| Ostream.device := Ostream.written os ++ a; Ostream.buffer := "" |}.
Proof.
  unfold Ostream.flushed, Ostream.insert, Ostream.written; simpl.
  now rewrite append_assoc.
Qed.

Lemma written_flushed (os : Ostream.t) :
  Ostream.written (Ostream.flushed os) = Ostream.written os.
Proof.
  unfold Ostream.written, Ostream.flushed; simpl. apply append_empty_r.
Qed.

Lemma written_insert (a : string) (os : Ostream.t) :
  Ostream.written (Ostream.insert a os) = Ostream.written os ++ a.
Proof.
  unfold Ostream.written, Ostream.insert; simpl.
  now rewrite append_assoc.
Qed.

(** ** C strings *)

(** The text before the terminator is read back, whatever follows it. *)
Lemma read_text (t rest : string) :
  CString.no_nul t = true ->
  CString.read (t ++ String Text.NUL rest) = Some t.
Proof.
  induction t as [|c t IH]; simpl; intros H.
  - reflexivity.
  - apply andb_true_iff in H. destruct H as [Hc Ht].
    apply negb_true_iff in Hc. rewrite Hc, (IH Ht). reflexivity.
Qed.

(** Terminated memory always reads as a text, and that text has no [NUL]. *)
Lemma read_terminated (bytes : string) :
  CString.terminated bytes = true ->
  exists t, CString.read bytes = Some t /\ CString.no_nul t = true.
Proof.
  induction bytes as [|c bytes IH]; simpl; intros H.
  - discriminate.
  - destruct (Ascii.eqb c Text.NUL) eqn:Hc.
    + exists "". split; reflexivity.
    + simpl in H. destruct (IH H) as [t [Hr Hn]].
      exists (String c t). rewrite Hr. simpl. rewrite Hc, Hn.
      split; reflexivity.
Qed.

(** Memory with no terminator cannot be read. *)
Lemma read_unterminated (bytes : string) :
  CString.terminated bytes = false -> CString.read bytes = None.
Proof.
  induction bytes as [|c bytes IH]; simpl; intros H.
  - reflexivity.
  - apply orb_false_iff in H. destruct H as [Hc Ht].
    rewrite Hc, (IH Ht). reflexivity.
Qed.

(** ** The printing functions, run *)

Lemma endl_run (os : Ostream.t) :
  Cout.endl os
  = Done (tt, {| Ostream.device := Ostream.written os ++ Text.newline;
                 Ostream.buffer := "" |}).
Proof.
  unfold Cout.endl, Cout.put, Cout.flush, bind, modify.
  now rewrite flushed_insert.
Qed.

Lemma put_endl_run (s : string) (os : Ostream.t) :
  (Cout.put s ;; Cout.endl) os
  = Done (tt, {| Ostream.device := Ostream.written os ++ s ++ Text.newline;
                 Ostream.buffer := "" |}).
Proof.
  unfold bind, Cout.put, modify. rewrite endl_run, written_insert.
  now rewrite append_assoc.
Qed.

Lemma SayHello_run (h : HelloClass.t) (os : Ostream.t) :
  HelloClass.SayHello {| HelloClass.this := h; HelloClass.cout := os |}
  = Done (tt, {| HelloClass.this := h;
                 HelloClass.cout :=
                   {| Ostream.device := Ostream.written os ++ HelloClass.greeting h;
                      Ostream.buffer := "" |} |}).
Proof.
  unfold HelloClass.SayHello, HelloClass.on_cout, HelloClass.field.
  unfold Cout.put_int, Cout.put_double, Cout.put, bind, modify, gets.
  cbn [HelloClass.this HelloClass.cout].
  rewrite endl_run, !insert_insert, written_insert.
  unfold HelloClass.greeting. rewrite !append_assoc. reflexivity.
Qed.

Lemma Say_run (h : HelloClass.t) (os : Ostream.t) (bytes t : string) :
  CString.read bytes = Some t ->
  HelloClass.Say (CString.ptr_to bytes)
    {| HelloClass.this := h; HelloClass.cout := os |}
  = Done (tt, {| HelloClass.this := h;
                 HelloClass.cout :=
                   {| Ostream.device := Ostream.written os ++ t ++ Text.newline;
                      Ostream.buffer := "" |} |}).
Proof.
  intros Hr.
  unfold HelloClass.Say, HelloClass.on_cout, Cout.put_cstr, bind.
  cbn [HelloClass.this HelloClass.cout]. rewrite Hr.
  unfold Cout.put, modify. cbn [HelloClass.this HelloClass.cout].
  rewrite endl_run, written_insert, append_assoc. reflexivity.
Qed.

Lemma Say_nullptr (w : HelloClass.world) :
  HelloClass.Say CString.nullptr w = Undefined.
Proof. reflexivity. Qed.

Lemma StaticHello_run (os : Ostream.t) :
  HelloClass.StaticHello os
  = Done (tt, {| Ostream.device :=
                   Ostream.written os
                   ++ "Hello, from HelloClass::StaticHello!" ++ Text.newline;
                 Ostream.buffer := "" |}).
Proof. apply put_endl_run. Qed.

(** ** The decimal exponent of a fraction *)

Lemma pow10_succ (k : Z) : 0 <= k -> 10 ^ (k + 1) = 10 * 10 ^ k.
Proof. intros Hk. rewrite Z.pow_add_r by lia. lia. Qed.

Lemma pow10_pos (k : Z) : 0 <= k -> 0 < 10 ^ k.
Proof. intros Hk. apply Z.pow_pos_nonneg; lia. Qed.

Lemma lt_pow10_log2 (n : Z) : 0 < n -> n < 10 ^ (Z.log2 n + 1).
Proof.
  intros Hn.
  pose proof (Z.log2_nonneg n) as Hl.
  assert (n < 2 ^ (Z.log2 n + 1)).
  { replace (Z.log2 n + 1) with (Z.succ (Z.log2 n)) by lia.
    apply Z.log2_spec. exact Hn. }
  assert (2 ^ (Z.log2 n + 1) <= 10 ^ (Z.log2 n + 1)).
  { apply Z.pow_le_mono_l. lia. }
  lia.
Qed.

Lemma exp10_up_spec (fuel : nat) (num den X : Z) :
  0 < den -> den <= num -> num < den * 10 ^ Z.of_nat fuel ->
  let X' := Double.exp10_up fuel num den X in
  X <= X' /\ den * 10 ^ (X' - X) <= num < den * 10 ^ (X' - X + 1).
Proof.
  revert den X. induction fuel as [|fuel IH]; intros den X Hd Hle Hlt.
  - simpl in Hlt. lia.
  - cbn [Double.exp10_up]. destruct (den * 10 <=? num) eqn:Hc.
    + apply Z.leb_le in Hc.
      assert (Hlt' : num < den * 10 * 10 ^ Z.of_nat fuel).
      { rewrite Nat2Z.inj_succ in Hlt.
        replace (Z.succ (Z.of_nat fuel)) with (Z.of_nat fuel + 1) in Hlt by lia.
        rewrite pow10_succ in Hlt by lia. lia. }
      specialize (IH (den * 10) (X + 1) ltac:(lia) Hc Hlt').
      cbv zeta in IH |- *. destruct IH as [HX [H1 H2]].
      set (X' := Double.exp10_up fuel num (den * 10) (X + 1)) in *.
      split; [lia|].
      replace (X' - X) with ((X' - (X + 1)) + 1) by lia.
      rewrite pow10_succ by lia.
      replace (X' - (X + 1) + 1 + 1) with ((X' - (X + 1) + 1) + 1) by lia.
      rewrite (pow10_succ (X' - (X + 1) + 1)) by lia.
      rewrite (pow10_succ (X' - (X + 1))) in * by lia. lia.
    + apply Z.leb_gt in Hc. cbv zeta.
      replace (X - X) with 0 by lia. simpl. lia.
Qed.

Lemma exp10_down_spec (fuel : nat) (num den X : Z) :
  0 < num -> num < den * 10 -> den <= num * 10 ^ Z.of_nat fuel ->
  let X' := Double.exp10_down fuel num den X in
  X' <= X /\ den <= num * 10 ^ (X - X') < den * 10.
Proof.
  revert num X. induction fuel as [|fuel IH]; intros num X Hn Hlt Hle.
  - cbn [Double.exp10_down]. cbv zeta. replace (X - X) with 0 by lia.
    simpl in *. lia.
  - cbn [Double.exp10_down]. destruct (num <? den) eqn:Hc.
    + apply Z.ltb_lt in Hc.
      assert (Hle' : den <= num * 10 * 10 ^ Z.of_nat fuel).
      { rewrite Nat2Z.inj_succ in Hle.
        replace (Z.succ (Z.of_nat fuel)) with (Z.of_nat fuel + 1) in Hle by lia.
        rewrite pow10_succ in Hle by lia. lia. }
      specialize (IH (num * 10) (X - 1) ltac:(lia) ltac:(lia) Hle').
      cbv zeta in IH |- *. destruct IH as [HX [H1 H2]].
      set (X' := Double.exp10_down fuel (num * 10) den (X - 1)) in *.
      split; [lia|].
      replace (X - X') with ((X - 1 - X') + 1) by lia.
      rewrite pow10_succ by lia. lia.
    + apply Z.ltb_ge in Hc. cbv zeta.
      replace (X - X) with 0 by lia. simpl. lia.
Qed.

(** [exp10 num den] is the decimal exponent of [num / den]:
    [10^X <= num / den < 10^(X+1)], written without division. *)
Lemma exp10_spec (num den : Z) :
  0 < num -> 0 < den ->
  let X := Double.exp10 num den in
  if 0 <=? X
  then den * 10 ^ X <= num < den * 10 ^ (X + 1)
  else den <= num * 10 ^ (- X) < den * 10.
Proof.
  intros Hn Hd. unfold Double.exp10. destruct (den <=? num) eqn:Hc.
  - apply Z.leb_le in Hc.
    pose proof (Z.log2_nonneg num) as Hl.
    assert (Hf : num < den * 10 ^ Z.of_nat (Z.to_nat (Z.log2 num + 1))).
    { rewrite Z2Nat.id by lia. pose proof (lt_pow10_log2 num Hn). nia. }
    pose proof (exp10_up_spec _ num den 0 Hd Hc Hf) as H.
    cbv zeta in H |- *. destruct H as [HX H].
    set (X := Double.exp10_up _ num den 0) in *.
    replace (0 <=? X) with true by (symmetry; apply Z.leb_le; lia).
    now rewrite !Z.sub_0_r in H.
  - apply Z.leb_gt in Hc.
    pose proof (Z.log2_nonneg den) as Hl.
    assert (Hf : den <= num * 10 ^ Z.of_nat (Z.to_nat (Z.log2 den + 1))).
    { rewrite Z2Nat.id by lia. pose proof (lt_pow10_log2 den Hd). nia. }
    pose proof (exp10_down_spec _ num den 0 Hn ltac:(lia) Hf) as H.
    cbv zeta in H |- *. destruct H as [HX H].
    set (X := Double.exp10_down _ num den 0) in *.
    destruct (0 <=? X) eqn:HX0.
    + apply Z.leb_le in HX0. assert (X = 0) by lia. subst X.
      replace (Double.exp10_down _ num den 0) with 0 in * by lia.
      simpl in H. lia.
    + now rewrite Z.sub_0_l in H.
Qed.

(** The rounded quotient is within one half of [num / den]. *)
Lemma round_half_even_nearest (num den : Z) :
  0 < den ->
  2 * Z.abs (num - Double.round_half_even num den * den) <= den.
Proof.
  intros Hd. unfold Double.round_half_even. cbv zeta.
  pose proof (Z.div_mod num den ltac:(lia)) as Hdm.
  pose proof (Z.mod_pos_bound num den Hd) as Hb.
  set (q := num / den) in *. set (r := num mod den) in *.
  assert (Hq : num - q * den = r) by lia.
  assert (Hq1 : num - (q + 1) * den = r - den) by lia.
  clearbody q r.
  destruct (Z.compare_spec (2 * r) den) as [Hc | Hc | Hc].
  - destruct (Z.even q); [rewrite Hq | rewrite Hq1]; lia.
  - rewrite Hq. lia.
  - rewrite Hq1. lia.
Qed.

(** ** The text of some doubles *)

Example to_string_half :
  Double.to_string (S754_finite false 4503599627370496 (-53)) = "0.5".
Proof. vm_compute. reflexivity. Qed.

(** The double nearest to one tenth. *)
Example to_string_tenth :
  Double.to_string (S754_finite false 7205759403792794 (-56)) = "0.1".
Proof. vm_compute. reflexivity. Qed.

Example to_string_million :
  Double.to_string (Double.of_int 1000000) = "1e+06".
Proof. vm_compute. reflexivity. Qed.

Example to_string_below_million :
  Double.to_string (Double.of_int 999999) = "999999".
Proof. vm_compute. reflexivity. Qed.

Example to_string_seven_digits :
  Double.to_string (Double.of_int (-1234567)) = "-1.23457e+06".
Proof. vm_compute. reflexivity. Qed.

(** [2^-10 = 0.0009765625]: a tie in the sixth digit, rounded to even. *)
Example to_string_tie :
  Double.to_string (S754_finite false 4503599627370496 (-62)) = "0.000976562".
Proof. vm_compute. reflexivity. Qed.

(** [2^-14]: below [1e-4], the exponent style. *)
Example to_string_small :
  Double.to_string (S754_finite false 4503599627370496 (-66)) = "6.10352e-05".
Proof. vm_compute. reflexivity. Qed.

Example to_string_special :
  Double.to_string (S754_zero true) = "-0"
  /\ Double.to_string (S754_infinity false) = "inf"
  /\ Double.to_string S754_nan = "nan".
Proof. repeat split. Qed.

Example int_to_string :
  Int.to_string 0 = "0" /\ Int.to_string (-42) = "-42"
  /\ Int.to_string Int.min_int64 = "-9223372036854775808".
Proof. repeat split. Qed.

(** ** The double the default constructor stores *)

(** [3] converts to the binary64 value [6755399441055744 * 2^-51], which is
    exactly three, and prints as ["3"]. *)
Lemma of_int_3 :
  Double.of_int 3 = S754_finite false 6755399441055744 (-51)
  /\ Double.is_double (Double.of_int 3) = true
  /\ Double.fraction 6755399441055744 (-51) = (3 * 2 ^ 51, 2 ^ 51)
  /\ Double.to_string (Double.of_int 3) = "3".
Proof. repeat split; vm_compute; reflexivity. Qed.

(** ** Constructors *)

(** C1: on any storage, the no-argument constructor leaves one = 1,
    two = 2, three = 3.0 and the private field = 4 (and writes nothing). *)
Theorem ctor_default_fields (raw : HelloClass.t) (os : Ostream.t) :
  exists h,
    HelloClass.ctor {| HelloClass.this := raw; HelloClass.cout := os |}
    = Done (tt, {| HelloClass.this := h; HelloClass.cout := os |})
    /\ HelloClass.one h = 1
    /\ HelloClass.two h = 2
    /\ HelloClass.three h = Double.of_int 3
    /\ HelloClass.thisIsPrivate h = 4.
Proof.
  eexists. split; [reflexivity|]. cbn. repeat split.
Qed.

(** C2: the two-argument constructor stores its arguments in one and two
    and leaves three and the private field as the storage had them; so for
    any value [v], three included, some storage makes three differ from [v]
    after the construction. *)
Theorem ctor2_fields (a b : Z) :
  (forall (raw : HelloClass.t) (os : Ostream.t),
      HelloClass.ctor2 a b {| HelloClass.this := raw; HelloClass.cout := os |}
      = Done (tt, {| HelloClass.this :=
                       {| HelloClass.one := a;
                          HelloClass.two := b;
                          HelloClass.three := HelloClass.three raw;
                          HelloClass.thisIsPrivate := HelloClass.thisIsPrivate raw |};
                     HelloClass.cout := os |}))
  /\ (forall (v : Double.t) (os : Ostream.t),
         exists raw w',
           HelloClass.wf raw = true
           /\ HelloClass.ctor2 a b
                {| HelloClass.this := raw; HelloClass.cout := os |}
              = Done (tt, w')
           /\ HelloClass.three (HelloClass.this w') <> v).
Proof.
  split.
  - intros raw os. reflexivity.
  - intros v os.
    destruct v as [s | s | | s m e].
    + exists (HelloClass.mk 0 0 (S754_infinity false) 0). eexists.
      split; [reflexivity|]. split; [reflexivity|]. cbn. discriminate.
    + exists (HelloClass.mk 0 0 (S754_zero false) 0). eexists.
      split; [reflexivity|]. split; [reflexivity|]. cbn. discriminate.
    + exists (HelloClass.mk 0 0 (S754_zero false) 0). eexists.
      split; [reflexivity|]. split; [reflexivity|]. cbn. discriminate.
    + exists (HelloClass.mk 0 0 (S754_zero false) 0). eexists.
      split; [reflexivity|]. split; [reflexivity|]. cbn. discriminate.
Qed.

(** C4: the three-argument constructor stores its arguments in one, two
    and three, and leaves the private field as the storage had it. *)
Theorem ctor3_fields (a b : Z) (c : Double.t)
    (raw : HelloClass.t) (os : Ostream.t) :
  HelloClass.ctor3 a b c {| HelloClass.this := raw; HelloClass.cout := os |}
  = Done (tt, {| HelloClass.this :=
                   {| HelloClass.one := a;
                      HelloClass.two := b;
                      HelloClass.three := c;
                      HelloClass.thisIsPrivate := HelloClass.thisIsPrivate raw |};
                 HelloClass.cout := os |}).
Proof. reflexivity. Qed.

(** Constructors keep the fields within their types. *)
Lemma ctor_wf (raw : HelloClass.t) (os : Ostream.t) :
  exists w', HelloClass.ctor {| HelloClass.this := raw; HelloClass.cout := os |}
             = Done (tt, w')
             /\ HelloClass.wf (HelloClass.this w') = true.
Proof. eexists. split; reflexivity. Qed.

Lemma ctor2_wf (a b : Z) (raw : HelloClass.t) (os : Ostream.t) :
  Int.is_int64 a = true -> Int.is_int32 b = true ->
  HelloClass.wf raw = true ->
  exists w', HelloClass.ctor2 a b {| HelloClass.this := raw; HelloClass.cout := os |}
             = Done (tt, w')
             /\ HelloClass.wf (HelloClass.this w') = true.
Proof.
  intros Ha Hb Hw. eexists. split; [reflexivity|].
  unfold HelloClass.wf in *. cbn.
  rewrite !andb_true_iff in *. tauto.
Qed.

Lemma ctor3_wf (a b : Z) (c : Double.t) (raw : HelloClass.t) (os : Ostream.t) :
  Int.is_int64 a = true -> Int.is_int32 b = true ->
  Double.is_double c = true ->
  HelloClass.wf raw = true ->
  exists w', HelloClass.ctor3 a b c {| HelloClass.this := raw; HelloClass.cout := os |}
             = Done (tt, w')
             /\ HelloClass.wf (HelloClass.this w') = true.
Proof.
  intros Ha Hb Hc Hw. eexists. split; [reflexivity|].
  unfold HelloClass.wf in *. cbn.
  rewrite !andb_true_iff in *. tauto.
Qed.

(** ** SayHello *)

(** C3, as stated, fails: for the object with one = 1, two = 2 and
    three = 3.0, on the empty stream, what [SayHello] writes is not the two
    lines of the greeting alone; a line feed follows them. *)
Lemma SayHello_writes_more_than_greeting :
  exists w',
    HelloClass.SayHello
      {| HelloClass.this := HelloClass.mk 1 2 (Double.of_int 3) 4;
         HelloClass.cout := Ostream.empty |}
    = Done (tt, w')
    /\ Ostream.written (HelloClass.cout w')
       <> "Hello, from HelloClass with" ++ Text.newline
          ++ "one: 1, two: 2, and three: 3"
    /\ Ostream.written (HelloClass.cout w')
       = "Hello, from HelloClass with" ++ Text.newline
         ++ "one: 1, two: 2, and three: 3" ++ Text.newline.
Proof.
  eexists. split; [reflexivity|]. split.
  - vm_compute. discriminate.
  - vm_compute. reflexivity.
Qed.

(** C3, amended: for the object with one = 1, two = 2 and three = 3.0,
    [SayHello] writes to standard output exactly "Hello, from HelloClass
    with", a line feed, "one: 1, two: 2, and three: 3" and a line feed,
    flushes, and changes nothing else. *)
Theorem SayHello_one_two_three (p : Z) (os : Ostream.t) :
  HelloClass.SayHello
    {| HelloClass.this := HelloClass.mk 1 2 (Double.of_int 3) p;
       HelloClass.cout := os |}
  = Done (tt,
          {| HelloClass.this := HelloClass.mk 1 2 (Double.of_int 3) p;
             HelloClass.cout :=
               {| Ostream.device :=
                    Ostream.written os
                    ++ "Hello, from HelloClass with" ++ Text.newline
                    ++ "one: 1, two: 2, and three: 3" ++ Text.newline;
                  Ostream.buffer := "" |} |}).
Proof.
  rewrite SayHello_run. do 4 f_equal.
Qed.

(** C7: two calls of [SayHello] in a row on an object write the same text
    twice, a text that depends on the fields only, and leave the object as
    it was. *)
Theorem SayHello_twice (h : HelloClass.t) (os : Ostream.t) :
  exists os1 os2,
    HelloClass.SayHello {| HelloClass.this := h; HelloClass.cout := os |}
    = Done (tt, {| HelloClass.this := h; HelloClass.cout := os1 |})
    /\ HelloClass.SayHello {| HelloClass.this := h; HelloClass.cout := os1 |}
       = Done (tt, {| HelloClass.this := h; HelloClass.cout := os2 |})
    /\ Ostream.written os1 = Ostream.written os ++ HelloClass.greeting h
    /\ Ostream.written os2 = Ostream.written os1 ++ HelloClass.greeting h.
Proof.
  do 2 eexists. split; [apply SayHello_run|]. split; [apply SayHello_run|].
  split; unfold Ostream.written at 1; simpl; apply append_empty_r.
Qed.

(** ** StaticHello *)

(** C5: [StaticHello], a computation on the stream alone, writes exactly
    "Hello, from HelloClass::StaticHello!" and a line feed, and flushes. *)
Theorem StaticHello_output (os : Ostream.t) :
  HelloClass.StaticHello os
  = Done (tt, {| Ostream.device :=
                   Ostream.written os
                   ++ "Hello, from HelloClass::StaticHello!" ++ Text.newline;
                 Ostream.buffer := "" |}).
Proof. apply StaticHello_run. Qed.

(** ** Say *)

(** C6: for a pointer to memory that holds the text [t] (no NUL in it), a
    NUL, and anything after, [Say] on any object writes exactly [t] and a
    line feed, flushes, and changes nothing else. *)
Theorem Say_output (h : HelloClass.t) (os : Ostream.t) (t rest : string) :
  CString.no_nul t = true ->
  HelloClass.Say (CString.ptr_to (t ++ String Text.NUL rest))
    {| HelloClass.this := h; HelloClass.cout := os |}
  = Done (tt, {| HelloClass.this := h;
                 HelloClass.cout :=
                   {| Ostream.device := Ostream.written os ++ t ++ Text.newline;
                      Ostream.buffer := "" |} |}).
Proof.
  intros Ht. apply Say_run. now apply read_text.
Qed.

(** [Say("test")] on the default object and the empty stream: "test" and a
    line feed reach standard output. *)
Lemma Say_output_test :
  CString.no_nul "test" = true
  /\ HelloClass.Say (CString.literal "test")
       {| HelloClass.this := HelloClass.mk 1 2 (Double.of_int 3) 4;
          HelloClass.cout := Ostream.empty |}
     = Done (tt, {| HelloClass.this := HelloClass.mk 1 2 (Double.of_int 3) 4;
                    HelloClass.cout :=
                      {| Ostream.device := "test" ++ Text.newline;
                         Ostream.buffer := "" |} |}).
Proof.
  split; [reflexivity|].
  apply (Say_output (HelloClass.mk 1 2 (Double.of_int 3) 4) Ostream.empty
           "test" ""). reflexivity.
Defined.

(** C10: [Say] with one valid text pointer on two objects, whatever their
    fields and whatever the streams hold, writes the same text on both and
    leaves both objects as they were. *)
Theorem Say_independent_of_fields
    (h1 h2 : HelloClass.t) (os1 os2 : Ostream.t)
    (value : CString.const_char_ptr) :
  CString.valid value = true ->
  exists text os1' os2',
    HelloClass.Say value {| HelloClass.this := h1; HelloClass.cout := os1 |}
    = Done (tt, {| HelloClass.this := h1; HelloClass.cout := os1' |})
    /\ HelloClass.Say value {| HelloClass.this := h2; HelloClass.cout := os2 |}
       = Done (tt, {| HelloClass.this := h2; HelloClass.cout := os2' |})
    /\ Ostream.written os1' = Ostream.written os1 ++ text
    /\ Ostream.written os2' = Ostream.written os2 ++ text.
Proof.
  intros Hv. destruct value as [|bytes]; [discriminate|].
  destruct (read_terminated bytes Hv) as [t [Hr _]].
  exists (t ++ Text.newline). do 2 eexists.
  split; [apply (Say_run _ _ _ _ Hr)|].
  split; [apply (Say_run _ _ _ _ Hr)|].
  split; unfold Ostream.written at 1; simpl; apply append_empty_r.
Qed.

Lemma Say_independent_of_fields_hi :
  CString.valid (CString.literal "hi") = true
  /\ exists text os1' os2',
    HelloClass.Say (CString.literal "hi")
      {| HelloClass.this := HelloClass.mk 1 2 (Double.of_int 3) 4;
         HelloClass.cout := Ostream.empty |}
    = Done (tt, {| HelloClass.this := HelloClass.mk 1 2 (Double.of_int 3) 4;
                   HelloClass.cout := os1' |})
    /\ HelloClass.Say (CString.literal "hi")
         {| HelloClass.this := HelloClass.mk (-7) 9 S754_nan 0;
            HelloClass.cout := Ostream.empty |}
       = Done (tt, {| HelloClass.this := HelloClass.mk (-7) 9 S754_nan 0;
                      HelloClass.cout := os2' |})
    /\ Ostream.written os1' = Ostream.written Ostream.empty ++ text
    /\ Ostream.written os2' = Ostream.written Ostream.empty ++ text.
Proof.
  split; [reflexivity|].
  apply (Say_independent_of_fields
           (HelloClass.mk 1 2 (Double.of_int 3) 4)
           (HelloClass.mk (-7) 9 S754_nan 0)
           Ostream.empty Ostream.empty (CString.literal "hi")).
  reflexivity.
Defined.

(** ** Every operation ends; only construction writes fields *)

(** C8: each operation of the class has a defined outcome: the three
    constructors and the destructor on any storage, [SayHello] on any
    object, [StaticHello] on any stream, and [Say] with a pointer to a
    null-terminated string. *)
Theorem operations_total
    (w : HelloClass.world) (a b : Z) (c : Double.t)
    (value : CString.const_char_ptr) :
  CString.valid value = true ->
  (exists w', HelloClass.ctor w = Done (tt, w'))
  /\ (exists w', HelloClass.ctor2 a b w = Done (tt, w'))
  /\ (exists w', HelloClass.ctor3 a b c w = Done (tt, w'))
  /\ (exists w', HelloClass.SayHello w = Done (tt, w'))
  /\ (exists w', HelloClass.Say value w = Done (tt, w'))
  /\ (exists os', HelloClass.StaticHello (HelloClass.cout w) = Done (tt, os'))
  /\ (exists w', HelloClass.dtor w = Done (tt, w')).
Proof.
  intros Hv. destruct w as [h os].
  split; [eexists; reflexivity|].
  split; [eexists; reflexivity|].
  split; [eexists; reflexivity|].
  split; [eexists; apply SayHello_run|].
  split; [|split].
  - destruct value as [|bytes]; [discriminate|].
    destruct (read_terminated bytes Hv) as [t [Hr _]].
    eexists. apply (Say_run _ _ _ _ Hr).
  - eexists. apply StaticHello_run.
  - eexists. reflexivity.
Qed.

Lemma operations_total_example :
  CString.valid (CString.literal "test") = true
  /\ (exists w', HelloClass.ctor
                   (HelloClass.mkWorld (HelloClass.mk 0 0 S754_nan 0) Ostream.empty)
                 = Done (tt, w'))
  /\ (exists w', HelloClass.ctor2 5 6
                   (HelloClass.mkWorld (HelloClass.mk 0 0 S754_nan 0) Ostream.empty)
                 = Done (tt, w'))
  /\ (exists w', HelloClass.ctor3 5 6 (Double.of_int 7)
                   (HelloClass.mkWorld (HelloClass.mk 0 0 S754_nan 0) Ostream.empty)
                 = Done (tt, w'))
  /\ (exists w', HelloClass.SayHello
                   (HelloClass.mkWorld (HelloClass.mk 0 0 S754_nan 0) Ostream.empty)
                 = Done (tt, w'))
  /\ (exists w', HelloClass.Say (CString.literal "test")
                   (HelloClass.mkWorld (HelloClass.mk 0 0 S754_nan 0) Ostream.empty)
                 = Done (tt, w'))
  /\ (exists os', HelloClass.StaticHello
                    (HelloClass.cout
                       (HelloClass.mkWorld (HelloClass.mk 0 0 S754_nan 0)
                          Ostream.empty))
                  = Done (tt, os'))
  /\ (exists w', HelloClass.dtor
                   (HelloClass.mkWorld (HelloClass.mk 0 0 S754_nan 0) Ostream.empty)
                 = Done (tt, w')).
Proof.
  split; [reflexivity|].
  apply (operations_total
           (HelloClass.mkWorld (HelloClass.mk 0 0 S754_nan 0) Ostream.empty)
           5 6 (Double.of_int 7) (CString.literal "test")).
  reflexivity.
Defined.

(** One valid call leaves the object as it was. *)
Lemma run_call_frame (c : HelloClass.call) (h : HelloClass.t) (os : Ostream.t) :
  HelloClass.valid_call c = true ->
  exists os',
    HelloClass.run_call c {| HelloClass.this := h; HelloClass.cout := os |}
    = Done (tt, {| HelloClass.this := h; HelloClass.cout := os' |}).
Proof.
  intros Hv. destruct c as [|value|]; simpl.
  - eexists. apply SayHello_run.
  - destruct value as [|bytes]; [discriminate|].
    destruct (read_terminated bytes Hv) as [t [Hr _]].
    eexists. apply (Say_run _ _ _ _ Hr).
  - unfold HelloClass.on_cout. cbn [HelloClass.this HelloClass.cout].
    rewrite StaticHello_run. eexists. reflexivity.
Qed.

(** C9: any sequence of calls of [SayHello], [Say] (with valid text
    pointers) and [StaticHello] on an object runs to its end and leaves the
    four fields as they were; so does the destructor, which changes
    nothing at all. *)
Theorem calls_keep_fields
    (cs : list HelloClass.call) (h : HelloClass.t) (os : Ostream.t) :
  forallb HelloClass.valid_call cs = true ->
  (exists os',
      HelloClass.run cs {| HelloClass.this := h; HelloClass.cout := os |}
      = Done (tt, {| HelloClass.this := h; HelloClass.cout := os' |}))
  /\ HelloClass.dtor {| HelloClass.this := h; HelloClass.cout := os |}
     = Done (tt, {| HelloClass.this := h; HelloClass.cout := os |}).
Proof.
  intros Hcs. split; [|reflexivity].
  revert os. induction cs as [|c cs IH]; intros os.
  - exists os. reflexivity.
  - simpl in Hcs. apply andb_true_iff in Hcs. destruct Hcs as [Hc Hcs].
    destruct (run_call_frame c h os Hc) as [os1 H1].
    destruct (IH Hcs os1) as [os2 H2].
    exists os2. simpl. unfold bind. rewrite H1. exact H2.
Qed.

Lemma calls_keep_fields_example :
  forallb HelloClass.valid_call
    [HelloClass.CallSayHello; HelloClass.CallSay (CString.literal "test");
     HelloClass.CallStaticHello; HelloClass.CallSayHello] = true
  /\ (exists os',
         HelloClass.run
           [HelloClass.CallSayHello; HelloClass.CallSay (CString.literal "test");
            HelloClass.CallStaticHello; HelloClass.CallSayHello]
           {| HelloClass.this := HelloClass.mk 5 6 (Double.of_int 7) 8;
              HelloClass.cout := Ostream.empty |}
         = Done (tt, {| HelloClass.this := HelloClass.mk 5 6 (Double.of_int 7) 8;
                        HelloClass.cout := os' |}))
  /\ HelloClass.dtor
       {| HelloClass.this := HelloClass.mk 5 6 (Double.of_int 7) 8;
          HelloClass.cout := Ostream.empty |}
     = Done (tt, {| HelloClass.this := HelloClass.mk 5 6 (Double.of_int 7) 8;
                    HelloClass.cout := Ostream.empty |}).
Proof.
  split; [reflexivity|].
  apply (calls_keep_fields
           [HelloClass.CallSayHello; HelloClass.CallSay (CString.literal "test");
            HelloClass.CallStaticHello; HelloClass.CallSayHello]
           (HelloClass.mk 5 6 (Double.of_int 7) 8) Ostream.empty).
  reflexivity.
Defined.

(** * Further properties *)

(** ** Say and the memory behind its pointer *)

(** What is read is the part of the memory before its first NUL. *)
Lemma read_decompose (bytes t : string) :
  CString.read bytes = Some t ->
  exists rest,
    bytes = t ++ String Text.NUL rest /\ CString.no_nul t = true.
Proof.
  revert t. induction bytes as [|c bytes IH]; simpl; intros t H.
  - discriminate.
  - destruct (Ascii.eqb c Text.NUL) eqn:Hc.
    + injection H as <-. apply Ascii.eqb_eq in Hc. subst c.
      exists bytes. split; reflexivity.
    + destruct (CString.read bytes) as [t'|] eqn:Hr; [|discriminate].
      injection H as <-. destruct (IH t' eq_refl) as [rest [Hb Hn]].
      exists rest. simpl. rewrite Hc, Hn, <- Hb. split; reflexivity.
Qed.

Lemma Say_invalid (value : CString.const_char_ptr) (w : HelloClass.world) :
  CString.valid value = false -> HelloClass.Say value w = Undefined.
Proof.
  intros Hv. destruct value as [|bytes]; [reflexivity|].
  simpl in Hv. unfold HelloClass.Say, HelloClass.on_cout, Cout.put_cstr, bind.
  rewrite (read_unterminated bytes Hv). reflexivity.
Qed.


(** X3: for any memory that holds a NUL, [Say] writes the characters
    before the first NUL and a line feed, and nothing of what follows. *)
Theorem Say_stops_at_first_NUL
    (h : HelloClass.t) (os : Ostream.t) (bytes : string) :
  CString.terminated bytes = true ->
  exists t rest,
    bytes = t ++ String Text.NUL rest
    /\ CString.no_nul t = true
    /\ HelloClass.Say (CString.ptr_to bytes)
         {| HelloClass.this := h; HelloClass.cout := os |}
       = Done (tt, {| HelloClass.this := h;
                      HelloClass.cout :=
                        {| Ostream.device :=
                             Ostream.written os ++ t ++ Text.newline;
                           Ostream.buffer := "" |} |}).
Proof.
  intros Ht. destruct (read_terminated bytes Ht) as [t [Hr Hn]].
  destruct (read_decompose bytes t Hr) as [rest [Hb _]].
  exists t, rest. split; [exact Hb|]. split; [exact Hn|].
  apply (Say_run _ _ _ _ Hr).
Qed.

Lemma Say_stops_at_first_NUL_example :
  CString.terminated ("ab" ++ String Text.NUL ("cd" ++ String Text.NUL ""))
  = true
  /\ exists t rest,
    "ab" ++ String Text.NUL ("cd" ++ String Text.NUL "")
    = t ++ String Text.NUL rest
    /\ CString.no_nul t = true
    /\ HelloClass.Say
         (CString.ptr_to ("ab" ++ String Text.NUL ("cd" ++ String Text.NUL "")))
         {| HelloClass.this := HelloClass.mk 1 2 (Double.of_int 3) 4;
            HelloClass.cout := Ostream.empty |}
       = Done (tt, {| HelloClass.this := HelloClass.mk 1 2 (Double.of_int 3) 4;
                      HelloClass.cout :=
                        {| Ostream.device :=
                             Ostream.written Ostream.empty ++ t ++ Text.newline;
                           Ostream.buffer := "" |} |}).
Proof.
  split; [reflexivity|].
  apply (Say_stops_at_first_NUL
           (HelloClass.mk 1 2 (Double.of_int 3) 4) Ostream.empty
           ("ab" ++ String Text.NUL ("cd" ++ String Text.NUL ""))).
  reflexivity.
Defined.

(** ** Sequences of calls *)

Lemma run_call_text (c : HelloClass.call) (h : HelloClass.t) (os : Ostream.t) :
  HelloClass.valid_call c = true ->
  HelloClass.run_call c {| HelloClass.this := h; HelloClass.cout := os |}
  = Done (tt, {| HelloClass.this := h;
                 HelloClass.cout :=
                   {| Ostream.device := Ostream.written os ++ Trace.call_text h c;
                      Ostream.buffer := "" |} |}).
Proof.
  intros Hv. destruct c as [|value|]; simpl.
  - apply SayHello_run.
  - destruct value as [|bytes]; [discriminate|].
    destruct (read_terminated bytes Hv) as [t [Hr _]].
    rewrite Hr. apply (Say_run _ _ _ _ Hr).
  - unfold HelloClass.on_cout. cbn [HelloClass.this HelloClass.cout].
    rewrite StaticHello_run. reflexivity.
Qed.

Lemma run_call_invalid (c : HelloClass.call) (w : HelloClass.world) :
  HelloClass.valid_call c = false -> HelloClass.run_call c w = Undefined.
Proof.
  destruct c as [|value|]; simpl; intros Hv; try discriminate.
  now apply Say_invalid.
Qed.

(** X4: a sequence of calls has a defined outcome exactly when every
    [Say] in it has a valid pointer; one invalid call makes the whole
    sequence undefined, whatever precedes or follows it. *)
Theorem run_defined_iff (cs : list HelloClass.call) (w : HelloClass.world) :
  (exists w', HelloClass.run cs w = Done (tt, w'))
  <-> forallb HelloClass.valid_call cs = true.
Proof.
  revert w. induction cs as [|c cs IH]; intros w.
  - split; [reflexivity|]. intros _. exists w. reflexivity.
  - simpl. unfold bind. split.
    + intros [w' H]. destruct (HelloClass.valid_call c) eqn:Hc.
      * destruct w as [h os]. rewrite (run_call_text c h os Hc) in H.
        simpl. eapply IH. exists w'. exact H.
      * rewrite (run_call_invalid c w Hc) in H. discriminate.
    + intros H. apply andb_true_iff in H. destruct H as [Hc Hcs].
      destruct w as [h os]. rewrite (run_call_text c h os Hc).
      apply IH. exact Hcs.
Qed.

(** X5: a sequence of valid calls appends to what was written the texts
    of the calls, in the order of the calls, and leaves nothing in the
    buffer unless the sequence is empty: everything has reached the
    device. *)
Theorem run_output
    (cs : list HelloClass.call) (h : HelloClass.t) (os : Ostream.t) :
  forallb HelloClass.valid_call cs = true ->
  exists os',
    HelloClass.run cs {| HelloClass.this := h; HelloClass.cout := os |}
    = Done (tt, {| HelloClass.this := h; HelloClass.cout := os' |})
    /\ Ostream.written os' = Ostream.written os ++ Trace.text h cs
    /\ (cs <> [] -> Ostream.buffer os' = ""
                    /\ Ostream.device os' = Ostream.written os ++ Trace.text h cs).
Proof.
  revert os. induction cs as [|c cs IH]; intros os Hcs.
  - exists os. split; [reflexivity|]. split.
    + simpl. now rewrite append_empty_r.
    + intros H. now contradiction H.
  - simpl in Hcs. apply andb_true_iff in Hcs. destruct Hcs as [Hc Hcs].
    destruct (IH {| Ostream.device := Ostream.written os ++ Trace.call_text h c;
                    Ostream.buffer := "" |} Hcs) as [os' [Hrun [Hw Hb]]].
    exists os'. simpl. unfold bind. rewrite (run_call_text c h os Hc).
    split; [exact Hrun|].
    assert (Hw' : Ostream.written os'
                  = Ostream.written os ++ Trace.call_text h c ++ Trace.text h cs).
    { rewrite Hw. unfold Ostream.written at 1. simpl.
      now rewrite append_empty_r, append_assoc. }
    split; [exact Hw'|]. intros _.
    destruct cs as [|c' cs'].
    + simpl in Hrun. injection Hrun as <-. simpl.
      split; [reflexivity|]. now rewrite append_empty_r.
    + destruct (Hb ltac:(discriminate)) as [Hbuf Hdev].
      split; [exact Hbuf|].
      rewrite <- Hw'. unfold Ostream.written. rewrite Hbuf.
      now rewrite append_empty_r.
Qed.

Lemma run_output_example :
  forallb HelloClass.valid_call
    [HelloClass.CallStaticHello; HelloClass.CallSay (CString.literal "test")]
  = true
  /\ exists os',
    HelloClass.run
      [HelloClass.CallStaticHello; HelloClass.CallSay (CString.literal "test")]
      {| HelloClass.this := HelloClass.mk 1 2 (Double.of_int 3) 4;
         HelloClass.cout := Ostream.empty |}
    = Done (tt, {| HelloClass.this := HelloClass.mk 1 2 (Double.of_int 3) 4;
                   HelloClass.cout := os' |})
    /\ Ostream.written os'
       = Ostream.written Ostream.empty
         ++ Trace.text (HelloClass.mk 1 2 (Double.of_int 3) 4)
              [HelloClass.CallStaticHello;
               HelloClass.CallSay (CString.literal "test")]
    /\ ([HelloClass.CallStaticHello; HelloClass.CallSay (CString.literal "test")]
        <> [] ->
        Ostream.buffer os' = ""
        /\ Ostream.device os'
           = Ostream.written Ostream.empty
             ++ Trace.text (HelloClass.mk 1 2 (Double.of_int 3) 4)
                  [HelloClass.CallStaticHello;
                   HelloClass.CallSay (CString.literal "test")]).
Proof.
  split; [reflexivity|].
  apply (run_output
           [HelloClass.CallStaticHello; HelloClass.CallSay (CString.literal "test")]
           (HelloClass.mk 1 2 (Double.of_int 3) 4) Ostream.empty).
  reflexivity.
Defined.

(** ** What SayHello shows *)


(** X8: [SayHello] never shows the private field: two objects that differ
    in it only write the same text. *)
Theorem SayHello_hides_private (h : HelloClass.t) (p : Z) (os : Ostream.t) :
  exists os',
    HelloClass.SayHello {| HelloClass.this := h; HelloClass.cout := os |}
    = Done (tt, {| HelloClass.this := h; HelloClass.cout := os' |})
    /\ HelloClass.SayHello
         {| HelloClass.this := HelloClass.set_thisIsPrivate p h;
            HelloClass.cout := os |}
       = Done (tt, {| HelloClass.this := HelloClass.set_thisIsPrivate p h;
                      HelloClass.cout := os' |}).
Proof.
  eexists. split; [apply SayHello_run|].
  rewrite SayHello_run. destruct h. reflexivity.
Qed.

(** X9: [SayHello] does not show three exactly: 1 and the next double
    after 1 are different values of three, and the objects holding them
    write the same text, whatever the other fields and the stream. *)
Theorem SayHello_rounds_three :
  exists x y : Double.t,
    Double.is_double x = true /\ Double.is_double y = true /\ x <> y
    /\ forall (a b p : Z) (os : Ostream.t),
        exists os',
          HelloClass.SayHello
            {| HelloClass.this := HelloClass.mk a b x p; HelloClass.cout := os |}
          = Done (tt, {| HelloClass.this := HelloClass.mk a b x p;
                         HelloClass.cout := os' |})
          /\ HelloClass.SayHello
               {| HelloClass.this := HelloClass.mk a b y p; HelloClass.cout := os |}
             = Done (tt, {| HelloClass.this := HelloClass.mk a b y p;
                            HelloClass.cout := os' |}).
Proof.
  exists (S754_finite false 4503599627370496 (-52)),
         (S754_finite false 4503599627370497 (-52)).
  split; [reflexivity|]. split; [reflexivity|]. split; [discriminate|].
  intros a b p os. eexists. split; [apply SayHello_run|].
  rewrite SayHello_run. unfold HelloClass.greeting.
  cbn [HelloClass.one HelloClass.two HelloClass.three].
  replace (Double.to_string (S754_finite false 4503599627370497 (-52)))
    with (Double.to_string (S754_finite false 4503599627370496 (-52)))
    by (vm_compute; reflexivity).
  reflexivity.
Qed.


(** ** The characters of numbers *)

Lemma all_app (P : ascii -> bool) (a b : string) :
  Chars.all P (a ++ b) = Chars.all P a && Chars.all P b.
Proof.
  induction a as [|c a IH]; simpl; [reflexivity|].
  now rewrite IH, andb_assoc.
Qed.

Lemma all_impl (P Q : ascii -> bool) (s : string) :
  (forall c, P c = true -> Q c = true) ->
  Chars.all P s = true -> Chars.all Q s = true.
Proof.
  intros HPQ. induction s as [|c s IH]; simpl; [reflexivity|].
  intros H. apply andb_true_iff in H. destruct H as [Hc Hs].
  now rewrite (HPQ c Hc), (IH Hs).
Qed.

Lemma numeric_other (c : ascii) :
  Chars.numeric c = true ->
  Chars.other_than Text.LF c = true /\ Chars.other_than "," c = true.
Proof.
  destruct c as [[] [] [] [] [] [] [] []]; intros H;
    solve [split; reflexivity | discriminate H].
Qed.

Lemma uint_numeric (d : Decimal.uint) :
  Chars.all Chars.numeric (NilEmpty.string_of_uint d) = true.
Proof.
  induction d; simpl; try rewrite IHd; reflexivity.
Qed.

Lemma int_numeric (z : Z) : Chars.all Chars.numeric (Int.to_string z) = true.
Proof.
  unfold Int.to_string.
  assert (Hu : forall d, Chars.all Chars.numeric (NilZero.string_of_uint d) = true).
  { intros d. destruct d; try reflexivity; apply uint_numeric. }
  destruct (Z.to_int z) as [d|d]; simpl.
  - apply Hu.
  - apply Hu.
Qed.

Lemma zeros_numeric (n : nat) : Chars.all Chars.numeric (Text.zeros n) = true.
Proof. induction n as [|n IH]; simpl; [reflexivity | exact IH]. Qed.

Lemma split_at_numeric (n : nat) (s : string) :
  Chars.all Chars.numeric s = true ->
  Chars.all Chars.numeric (fst (Text.split_at n s)) = true
  /\ Chars.all Chars.numeric (snd (Text.split_at n s)) = true.
Proof.
  revert s. induction n as [|n IH]; intros s H.
  - destruct s; simpl; split; trivial.
  - destruct s as [|c s]; simpl; [split; trivial|].
    simpl in H. apply andb_true_iff in H. destruct H as [Hc Hs].
    destruct (IH s Hs) as [H1 H2].
    destruct (Text.split_at n s) as [a b]. simpl in *.
    rewrite Hc, H1. split; trivial.
Qed.

Lemma strip_zeros_numeric (s : string) :
  Chars.all Chars.numeric s = true ->
  Chars.all Chars.numeric (Text.strip_zeros s) = true.
Proof.
  induction s as [|c s IH]; simpl; [trivial|].
  intros H. apply andb_true_iff in H. destruct H as [Hc Hs].
  specialize (IH Hs). destruct (Text.strip_zeros s) as [|x r].
  - destruct (Ascii.eqb c "0"); simpl; [reflexivity | now rewrite Hc].
  - change (Chars.numeric c && Chars.all Chars.numeric (String x r) = true).
    now rewrite Hc, IH.
Qed.

Lemma with_point_numeric (i f : string) :
  Chars.all Chars.numeric i = true ->
  Chars.all Chars.numeric f = true ->
  Chars.all Chars.numeric (Text.with_point i f) = true.
Proof.
  intros Hi Hf. unfold Text.with_point.
  pose proof (strip_zeros_numeric f Hf) as Hs.
  destruct (Text.strip_zeros f) as [|x r]; [exact Hi|].
  rewrite all_app, Hi. exact Hs.
Qed.

Lemma exponent_part_numeric (X : Z) :
  Chars.all Chars.numeric (Double.exponent_part X) = true.
Proof.
  unfold Double.exponent_part. rewrite !all_app, int_numeric.
  destruct (X <? 0); destruct (Z.abs X <? 10); reflexivity.
Qed.

Lemma general_numeric (P num den : Z) :
  Chars.all Chars.numeric (Double.general P num den) = true.
Proof.
  unfold Double.general. destruct (Double.decimal P num den) as [D X].
  pose proof (int_numeric D) as HD.
  destruct ((-4 <=? X) && (X <? P)).
  - unfold Double.fixed. destruct (0 <=? X).
    + destruct (split_at_numeric (Z.to_nat (X + 1)) _ HD) as [H1 H2].
      destruct (Text.split_at (Z.to_nat (X + 1)) (Int.to_string D)) as [i f].
      now apply with_point_numeric.
    + apply with_point_numeric; [reflexivity|].
      now rewrite all_app, zeros_numeric, HD.
  - unfold Double.scientific.
    destruct (split_at_numeric 1 _ HD) as [H1 H2].
    destruct (Text.split_at 1 (Int.to_string D)) as [i f].
    rewrite all_app, exponent_part_numeric, andb_true_r.
    now apply with_point_numeric.
Qed.

(** The text of a double is made of digits, signs, the point, the
    exponent letter and the letters of [inf] and [nan]. *)
Lemma double_numeric (x : Double.t) :
  Chars.all Chars.numeric (Double.to_string x) = true.
Proof.
  destruct x as [s | s | | s m e]; simpl.
  - destruct s; reflexivity.
  - destruct s; reflexivity.
  - reflexivity.
  - destruct (Double.fraction m e) as [num den].
    rewrite all_app, general_numeric. destruct s; reflexivity.
Qed.

(** ** Reading the greeting back *)

Lemma append_inv_head (a x y : string) : a ++ x = a ++ y -> x = y.
Proof.
  induction a as [|c a IH]; simpl; intros H; [exact H|].
  injection H as H. now apply IH.
Qed.

(** A text cut at the first occurrence of [c] is cut in one way only. *)
Lemma split_unique (c : ascii) (s s' r r' : string) :
  Chars.all (Chars.other_than c) s = true ->
  Chars.all (Chars.other_than c) s' = true ->
  s ++ String c r = s' ++ String c r' ->
  s = s' /\ r = r'.
Proof.
  revert s'. induction s as [|x s IH]; intros s' Hs Hs' H.
  - destruct s' as [|x' s']; simpl in H.
    + injection H as H. split; [reflexivity | exact H].
    + injection H as Hx _. subst x'. simpl in Hs'.
      unfold Chars.other_than in Hs'. rewrite Ascii.eqb_refl in Hs'.
      discriminate.
  - simpl in Hs. apply andb_true_iff in Hs. destruct Hs as [Hx Hs].
    destruct s' as [|x' s']; simpl in H.
    + injection H as Hx' _. subst x.
      unfold Chars.other_than in Hx. rewrite Ascii.eqb_refl in Hx.
      discriminate.
    + injection H as Hxx H. subst x'.
      simpl in Hs'. apply andb_true_iff in Hs'. destruct Hs' as [_ Hs'].
      destruct (IH s' Hs Hs' H) as [-> ->]. split; reflexivity.
Qed.

(** Different integers have different decimal texts. *)
Lemma int_to_string_inj (a b : Z) :
  Int.to_string a = Int.to_string b -> a = b.
Proof.
  assert (Hn : forall z, Z.to_int z <> Decimal.Pos Decimal.Nil
                         /\ Z.to_int z <> Decimal.Neg Decimal.Nil).
  { intros [|p|p]; simpl; split; try discriminate;
      intros H; injection H as H;
      exact (DecimalPos.Unsigned.to_uint_nonnil p H). }
  unfold Int.to_string. intros H.
  apply DecimalZ.to_int_inj.
  destruct (Hn a) as [Ha1 Ha2]. destruct (Hn b) as [Hb1 Hb2].
  pose proof (NilZero.isi _ Ha1 Ha2) as Ia.
  pose proof (NilZero.isi _ Hb1 Hb2) as Ib.
  rewrite H in Ia. rewrite Ia in Ib. now injection Ib.
Qed.

Lemma int_no_comma (z : Z) :
  Chars.all (Chars.other_than ",") (Int.to_string z) = true.
Proof.
  apply (all_impl Chars.numeric); [|apply int_numeric].
  intros c Hc. now apply numeric_other.
Qed.

(** X6: whatever the fields hold, [SayHello] writes two lines: the fixed
    first line, and a second line with no line feed inside, ended by the
    line feed of [std::endl]. *)
Theorem SayHello_two_lines (h : HelloClass.t) (os : Ostream.t) :
  exists line : string,
    Chars.all (Chars.other_than Text.LF) line = true
    /\ HelloClass.SayHello {| HelloClass.this := h; HelloClass.cout := os |}
       = Done (tt,
               {| HelloClass.this := h;
                  HelloClass.cout :=
                    {| Ostream.device :=
                         Ostream.written os
                         ++ "Hello, from HelloClass with" ++ Text.newline
                         ++ line ++ Text.newline;
                       Ostream.buffer := "" |} |}).
Proof.
  exists ("one: " ++ Int.to_string (HelloClass.one h)
          ++ ", two: " ++ Int.to_string (HelloClass.two h)
          ++ ", and three: " ++ Double.to_string (HelloClass.three h)).
  assert (Hnum : forall s, Chars.all Chars.numeric s = true ->
                           Chars.all (Chars.other_than Text.LF) s = true).
  { intros s. apply all_impl. intros c Hc. now apply numeric_other. }
  split.
  - rewrite !all_app.
    rewrite (Hnum _ (int_numeric (HelloClass.one h))).
    rewrite (Hnum _ (int_numeric (HelloClass.two h))).
    rewrite (Hnum _ (double_numeric (HelloClass.three h))).
    reflexivity.
  - rewrite SayHello_run. unfold HelloClass.greeting.
    do 4 f_equal. rewrite !append_assoc. reflexivity.
Qed.

(** X7: the text [SayHello] writes determines one and two: when two
    objects write the same from the same stream, their fields one are
    equal and their fields two are equal. *)
Theorem SayHello_shows_one_and_two
    (h1 h2 : HelloClass.t) (os os' : Ostream.t) :
  HelloClass.SayHello {| HelloClass.this := h1; HelloClass.cout := os |}
  = Done (tt, {| HelloClass.this := h1; HelloClass.cout := os' |}) ->
  HelloClass.SayHello {| HelloClass.this := h2; HelloClass.cout := os |}
  = Done (tt, {| HelloClass.this := h2; HelloClass.cout := os' |}) ->
  HelloClass.one h1 = HelloClass.one h2
  /\ HelloClass.two h1 = HelloClass.two h2.
Proof.
  rewrite !SayHello_run. intros H1 H2.
  injection H1 as H1. injection H2 as H2. rewrite <- H2 in H1.
  injection H1 as H1.
  apply append_inv_head in H1. unfold HelloClass.greeting in H1.
  apply append_inv_head in H1.
  apply (split_unique "," _ _
           (" two: " ++ Int.to_string (HelloClass.two h1) ++ ", and three: "
            ++ Double.to_string (HelloClass.three h1) ++ Text.newline)
           (" two: " ++ Int.to_string (HelloClass.two h2) ++ ", and three: "
            ++ Double.to_string (HelloClass.three h2) ++ Text.newline)
           (int_no_comma _) (int_no_comma _)) in H1.
  destruct H1 as [Hone Hrest].
  apply (append_inv_head " two: ") in Hrest.
  apply (split_unique "," _ _
           (" and three: "
            ++ Double.to_string (HelloClass.three h1) ++ Text.newline)
           (" and three: "
            ++ Double.to_string (HelloClass.three h2) ++ Text.newline)
           (int_no_comma _) (int_no_comma _)) in Hrest.
  destruct Hrest as [Htwo _].
  split; now apply int_to_string_inj.
Qed.

(** Two objects that differ in three and in the private field, and write
    the same greeting: their fields one and two are equal. *)
Lemma SayHello_shows_one_and_two_example :
  (HelloClass.SayHello
     {| HelloClass.this :=
          HelloClass.mk 5 (-6) (S754_finite false 4503599627370496 (-52)) 4;
        HelloClass.cout := Ostream.empty |}
   = Done (tt,
           {| HelloClass.this :=
                HelloClass.mk 5 (-6) (S754_finite false 4503599627370496 (-52)) 4;
              HelloClass.cout :=
                {| Ostream.device :=
                     "Hello, from HelloClass with" ++ Text.newline
                     ++ "one: 5, two: -6, and three: 1" ++ Text.newline;
                   Ostream.buffer := "" |} |})
   /\ HelloClass.SayHello
        {| HelloClass.this :=
             HelloClass.mk 5 (-6) (S754_finite false 4503599627370497 (-52)) 9;
           HelloClass.cout := Ostream.empty |}
      = Done (tt,
              {| HelloClass.this :=
                   HelloClass.mk 5 (-6)
                     (S754_finite false 4503599627370497 (-52)) 9;
                 HelloClass.cout :=
                   {| Ostream.device :=
                        "Hello, from HelloClass with" ++ Text.newline
                        ++ "one: 5, two: -6, and three: 1" ++ Text.newline;
                      Ostream.buffer := "" |} |}))
  /\ HelloClass.one
       (HelloClass.mk 5 (-6) (S754_finite false 4503599627370496 (-52)) 4)
     = HelloClass.one
         (HelloClass.mk 5 (-6) (S754_finite false 4503599627370497 (-52)) 9)
  /\ HelloClass.two
       (HelloClass.mk 5 (-6) (S754_finite false 4503599627370496 (-52)) 4)
     = HelloClass.two
         (HelloClass.mk 5 (-6) (S754_finite false 4503599627370497 (-52)) 9).
Proof.
  assert (H1 : HelloClass.SayHello
     {| HelloClass.this :=
          HelloClass.mk 5 (-6) (S754_finite false 4503599627370496 (-52)) 4;
        HelloClass.cout := Ostream.empty |}
   = Done (tt,
           {| HelloClass.this :=
                HelloClass.mk 5 (-6) (S754_finite false 4503599627370496 (-52)) 4;
              HelloClass.cout :=
                {| Ostream.device :=
                     "Hello, from HelloClass with" ++ Text.newline
                     ++ "one: 5, two: -6, and three: 1" ++ Text.newline;
                   Ostream.buffer := "" |} |})) by (vm_compute; reflexivity).
  assert (H2 : HelloClass.SayHello
        {| HelloClass.this :=
             HelloClass.mk 5 (-6) (S754_finite false 4503599627370497 (-52)) 9;
           HelloClass.cout := Ostream.empty |}
      = Done (tt,
              {| HelloClass.this :=
                   HelloClass.mk 5 (-6)
                     (S754_finite false 4503599627370497 (-52)) 9;
                 HelloClass.cout :=
                   {| Ostream.device :=
                        "Hello, from HelloClass with" ++ Text.newline
                        ++ "one: 5, two: -6, and three: 1" ++ Text.newline;
                      Ostream.buffer := "" |} |})) by (vm_compute; reflexivity).
  split; [split; [exact H1 | exact H2]|].
  exact (SayHello_shows_one_and_two _ _ _ _ H1 H2).
Defined.

(** ** Doubles that hold whole numbers *)

(** The bounds that [exp10_spec] gives single out one exponent. *)
Lemma exp10_unique (n m X X' : Z) :
  0 < n -> 0 < m ->
  (if 0 <=? X then m * 10 ^ X <= n < m * 10 ^ (X + 1)
   else m <= n * 10 ^ (- X) < m * 10) ->
  (if 0 <=? X' then m * 10 ^ X' <= n < m * 10 ^ (X' + 1)
   else m <= n * 10 ^ (- X') < m * 10) ->
  X = X'.
Proof.
  intros Hn Hm HX HX'.
  assert (Hmono : forall a b, 0 <= a -> a < b -> 10 * 10 ^ a <= 10 ^ b).
  { intros a b Ha Hab. rewrite <- pow10_succ by lia.
    apply Z.pow_le_mono_r; lia. }
  destruct (0 <=? X) eqn:E; destruct (0 <=? X') eqn:E';
    [apply Z.leb_le in E; apply Z.leb_le in E'
    |apply Z.leb_le in E; apply Z.leb_gt in E'
    |apply Z.leb_gt in E; apply Z.leb_le in E'
    |apply Z.leb_gt in E; apply Z.leb_gt in E'].
  - rewrite pow10_succ in HX, HX' by lia.
    destruct (Z.lt_trichotomy X X') as [H | [H | H]]; [|exact H|].
    + pose proof (Hmono X X' E H). nia.
    + pose proof (Hmono X' X E' H). nia.
  - pose proof (pow10_pos X E).
    pose proof (Hmono 0 (- X') ltac:(lia) ltac:(lia)) as H1.
    simpl in H1. nia.
  - pose proof (pow10_pos X' E').
    pose proof (Hmono 0 (- X) ltac:(lia) ltac:(lia)) as H1.
    simpl in H1. nia.
  - destruct (Z.lt_trichotomy X X') as [H | [H | H]]; [|exact H|].
    + pose proof (Hmono (- X') (- X) ltac:(lia) ltac:(lia)).
      pose proof (pow10_pos (- X') ltac:(lia)). nia.
    + pose proof (Hmono (- X) (- X') ltac:(lia) ltac:(lia)).
      pose proof (pow10_pos (- X) ltac:(lia)). nia.
Qed.

(** The decimal exponent depends on the quotient only. *)
Lemma exp10_scale (n m d : Z) :
  0 < n -> 0 < m -> 0 < d ->
  Double.exp10 (n * d) (m * d) = Double.exp10 n m.
Proof.
  intros Hn Hm Hd.
  pose proof (exp10_spec (n * d) (m * d) ltac:(nia) ltac:(nia)) as H1.
  pose proof (exp10_spec n m Hn Hm) as H2.
  cbv zeta in H1, H2.
  apply (exp10_unique n m); try assumption.
  destruct (0 <=? Double.exp10 (n * d) (m * d)); nia.
Qed.

Lemma round_half_even_scale (n m d : Z) :
  0 < m -> 0 < d ->
  Double.round_half_even (n * d) (m * d) = Double.round_half_even n m.
Proof.
  intros Hm Hd. unfold Double.round_half_even. cbv zeta.
  rewrite Z.div_mul_cancel_r by lia.
  rewrite Z.mul_mod_distr_r by lia.
  set (q := n / m). set (r := n mod m).
  assert (Hc : (2 * (r * d) ?= m * d) = (2 * r ?= m)).
  { destruct (Z.compare_spec (2 * r) m) as [H | H | H].
    - apply Z.compare_eq_iff. nia.
    - apply Z.compare_lt_iff. nia.
    - apply Z.compare_gt_iff. nia. }
  now rewrite Hc.
Qed.

Lemma decimal_scale (P n m d : Z) :
  0 < n -> 0 < m -> 0 < d ->
  Double.decimal P (n * d) (m * d) = Double.decimal P n m.
Proof.
  intros Hn Hm Hd. unfold Double.decimal. cbv zeta.
  rewrite (exp10_scale n m d Hn Hm Hd).
  set (s := P - 1 - Double.exp10 n m).
  unfold Double.scale. destruct (0 <=? s) eqn:Es.
  - replace (n * d * 10 ^ s) with (n * 10 ^ s * d) by ring.
    now rewrite round_half_even_scale by lia.
  - apply Z.leb_gt in Es.
    pose proof (pow10_pos (- s) ltac:(lia)).
    replace (m * d * 10 ^ (- s)) with (m * 10 ^ (- s) * d) by ring.
    now rewrite round_half_even_scale by nia.
Qed.

(** *** The decimal text of a whole number, digit by digit *)

Lemma string_of_revapp (d acc : Decimal.uint) :
  NilEmpty.string_of_uint (Decimal.revapp d acc)
  = NilEmpty.string_of_uint (Decimal.revapp d Decimal.Nil)
    ++ NilEmpty.string_of_uint acc.
Proof.
  revert acc. induction d; intros acc; simpl; try reflexivity;
    rewrite IHd; symmetry; rewrite IHd; simpl;
    now rewrite append_assoc.
Qed.

Lemma to_lu_add (n : N) (j : nat) :
  DecimalPos.Unsigned.to_lu (n + N.of_nat j)
  = Nat.iter j Decimal.Little.succ (DecimalPos.Unsigned.to_lu n).
Proof.
  induction j as [|j IH].
  - simpl. now rewrite N.add_0_r.
  - rewrite Nnat.Nat2N.inj_succ, N.add_succ_r, DecimalPos.Unsigned.to_lu_succ, IH.
    reflexivity.
Qed.

Lemma pos_to_string (p : positive) :
  Int.to_string (Zpos p)
  = NilEmpty.string_of_uint (Decimal.rev (Pos.to_little_uint p)).
Proof.
  unfold Int.to_string. simpl. unfold Pos.to_uint.
  pose proof (DecimalPos.Unsigned.to_uint_nonnil p) as Hn.
  unfold Pos.to_uint in Hn.
  destruct (Decimal.rev (Pos.to_little_uint p)); try reflexivity.
  now contradiction Hn.
Qed.

(** The text of [10 * q + r] is the text of [q] and the digit [r]. *)
Lemma int_to_string_digit (q r : Z) :
  0 < q -> 0 <= r <= 9 ->
  Int.to_string (10 * q + r) = Int.to_string q ++ String (Chars.digit r) "".
Proof.
  intros Hq Hr.
  destruct q as [|p|p]; try lia.
  assert (Hx : 10 * Z.pos p + r
               = Z.of_N (10 * N.pos p + N.of_nat (Z.to_nat r))) by lia.
  rewrite Hx. clear Hx.
  remember (10 * N.pos p + N.of_nat (Z.to_nat r))%N as n eqn:HN.
  destruct n as [|x]; [lia|]. cbn [Z.of_N].
  rewrite !pos_to_string.
  change (Pos.to_little_uint x) with (DecimalPos.Unsigned.to_lu (N.pos x)).
  rewrite HN, to_lu_add, DecimalPos.Unsigned.to_ldec_tenfold.
  change (DecimalPos.Unsigned.to_lu (N.pos p)) with (Pos.to_little_uint p).
  assert (Hj : (Z.to_nat r <= 9)%nat) by lia.
  unfold Chars.digit.
  destruct (Z.to_nat r) as [|[|[|[|[|[|[|[|[|[|j]]]]]]]]]]; try lia;
    cbv [Nat.iter nat_rect Decimal.Little.succ]; unfold Decimal.rev;
    cbn [Decimal.revapp]; rewrite string_of_revapp; reflexivity.
Qed.

Lemma zeros_snoc (j : nat) : Text.zeros j ++ "0" = String "0" (Text.zeros j).
Proof. induction j as [|j IH]; simpl; [reflexivity | now rewrite IH]. Qed.

(** Multiplying by a power of ten appends zeros. *)
Lemma int_to_string_pow10 (k : Z) (j : nat) :
  0 < k ->
  Int.to_string (k * 10 ^ Z.of_nat j) = Int.to_string k ++ Text.zeros j.
Proof.
  intros Hk. induction j as [|j IH].
  - simpl. now rewrite Z.mul_1_r, append_empty_r.
  - rewrite Nat2Z.inj_succ, Z.pow_succ_r by lia.
    replace (k * (10 * 10 ^ Z.of_nat j)) with (10 * (k * 10 ^ Z.of_nat j) + 0)
      by ring.
    pose proof (pow10_pos (Z.of_nat j) ltac:(lia)).
    rewrite int_to_string_digit by nia.
    rewrite IH, append_assoc.
    change (String (Chars.digit 0) "") with "0".
    now rewrite zeros_snoc.
Qed.

Lemma length_append (a b : string) :
  String.length (a ++ b) = (String.length a + String.length b)%nat.
Proof. induction a as [|c a IH]; simpl; [reflexivity | now rewrite IH]. Qed.

(** For a whole number the decimal exponent is not negative. *)
Lemma exp10_whole (k : Z) :
  0 < k ->
  0 <= Double.exp10 k 1
  /\ 10 ^ Double.exp10 k 1 <= k < 10 ^ (Double.exp10 k 1 + 1).
Proof.
  intros Hk. pose proof (exp10_spec k 1 Hk ltac:(lia)) as H. cbv zeta in H.
  destruct (0 <=? Double.exp10 k 1) eqn:E.
  - apply Z.leb_le in E. split; [exact E | lia].
  - apply Z.leb_gt in E.
    assert (10 * 10 ^ 0 <= 10 ^ (- Double.exp10 k 1)).
    { rewrite <- pow10_succ by lia. apply Z.pow_le_mono_r; lia. }
    simpl in *. nia.
Qed.

Lemma exp10_intro (k X : Z) :
  0 < k -> 0 <= X -> 10 ^ X <= k < 10 ^ (X + 1) -> Double.exp10 k 1 = X.
Proof.
  intros Hk HX Hb. destruct (exp10_whole k Hk) as [H0 H1].
  apply (exp10_unique k 1); try lia.
  - replace (0 <=? Double.exp10 k 1) with true
      by (symmetry; now apply Z.leb_le). lia.
  - replace (0 <=? X) with true by (symmetry; now apply Z.leb_le). lia.
Qed.

(** The text of a whole number has one character more than its decimal
    exponent. *)
Lemma int_to_string_length (k : Z) :
  0 < k ->
  Z.of_nat (String.length (Int.to_string k)) = Double.exp10 k 1 + 1.
Proof.
  induction k as [k IH] using (well_founded_induction (Z.lt_wf 0)).
  intros Hk.
  destruct (Z.lt_ge_cases k 10) as [Hs | Hl].
  - rewrite (exp10_intro k 0) by (simpl; lia).
    assert (Hc : k = 1 \/ k = 2 \/ k = 3 \/ k = 4 \/ k = 5 \/ k = 6
                 \/ k = 7 \/ k = 8 \/ k = 9) by lia.
    repeat (destruct Hc as [-> | Hc]; [reflexivity|]). now subst k.
  - pose proof (Z.div_mod k 10 ltac:(lia)) as Hdm.
    pose proof (Z.mod_pos_bound k 10 ltac:(lia)) as Hr.
    set (q := k / 10) in *. set (r := k mod 10) in *.
    assert (Hq : 0 < q) by lia.
    specialize (IH q ltac:(lia) Hq).
    destruct (exp10_whole q Hq) as [HX HB].
    rewrite Hdm at 1. rewrite int_to_string_digit by lia.
    rewrite length_append. simpl String.length.
    rewrite (exp10_intro k (Double.exp10 q 1 + 1)); try lia.
    rewrite !pow10_succ by lia. rewrite pow10_succ in HB by lia. lia.
Qed.

Lemma split_at_append (a b : string) :
  Text.split_at (String.length a) (a ++ b) = (a, b).
Proof.
  induction a as [|c a IH]; simpl.
  - destruct b; reflexivity.
  - now rewrite IH.
Qed.

Lemma strip_zeros_zeros (j : nat) : Text.strip_zeros (Text.zeros j) = "".
Proof. induction j as [|j IH]; simpl; [reflexivity | now rewrite IH]. Qed.

(** The text of a whole number below a million, as a fraction over one,
    is its decimal text: no point, no exponent. *)
Lemma general_whole (k : Z) :
  0 < k < 1000000 ->
  Double.general Double.precision k 1 = Int.to_string k.
Proof.
  intros Hk. destruct (exp10_whole k ltac:(lia)) as [HX HB].
  set (X := Double.exp10 k 1) in *.
  assert (HX5 : X <= 5).
  { destruct (Z.le_gt_cases X 5) as [H | H]; [exact H|].
    assert (10 ^ 6 <= 10 ^ X) by (apply Z.pow_le_mono_r; lia).
    change (10 ^ 6) with 1000000 in *. lia. }
  assert (Hsix : 10 ^ (X + 1) * 10 ^ (5 - X) = 1000000).
  { rewrite <- Z.pow_add_r by lia. now replace (X + 1 + (5 - X)) with 6 by lia. }
  pose proof (pow10_pos (5 - X) ltac:(lia)) as Hp.
  unfold Double.general, Double.decimal, Double.precision. cbv zeta.
  fold X. replace (6 - 1 - X) with (5 - X) by lia.
  unfold Double.scale.
  replace (0 <=? 5 - X) with true by (symmetry; apply Z.leb_le; lia).
  assert (Hr : Double.round_half_even (k * 10 ^ (5 - X)) 1 = k * 10 ^ (5 - X)).
  { unfold Double.round_half_even. cbv zeta.
    now rewrite Z.div_1_r, Z.mod_1_r. }
  rewrite Hr.
  replace (10 ^ 6 <=? k * 10 ^ (5 - X)) with false
    by (symmetry; apply Z.leb_gt; change (10 ^ 6) with 1000000; nia).
  replace ((-4 <=? X) && (X <? 6)) with true
    by (symmetry; apply andb_true_iff; split;
        [apply Z.leb_le | apply Z.ltb_lt]; lia).
  unfold Double.fixed.
  replace (0 <=? X) with true by (symmetry; apply Z.leb_le; lia).
  replace (5 - X) with (Z.of_nat (Z.to_nat (5 - X))) by lia.
  rewrite int_to_string_pow10 by lia.
  replace (Z.to_nat (X + 1)) with (String.length (Int.to_string k))
    by (pose proof (int_to_string_length k ltac:(lia)); fold X in H; lia).
  rewrite split_at_append. unfold Text.with_point.
  now rewrite strip_zeros_zeros.
Qed.

Lemma int_to_string_sign (k : Z) :
  Int.to_string k = Double.sign_text (k <? 0) ++ Int.to_string (Z.abs k).
Proof. destruct k; reflexivity. Qed.

(** A double that holds a whole number below a million in absolute value
    has the decimal text of that number. *)
Lemma whole_to_string (x : Double.t) (k : Z) :
  Whole.holds x k = true ->
  0 < Z.abs k < 1000000 ->
  Double.to_string x = Int.to_string k.
Proof.
  intros Hh Hk. destruct x as [s | s | | s m e]; try discriminate.
  unfold Whole.holds in Hh. unfold Double.to_string.
  assert (Hden : 0 < snd (Double.fraction m e)).
  { unfold Double.fraction. destruct (0 <=? e) eqn:E; simpl; [lia|].
    apply Z.leb_gt in E. apply Z.pow_pos_nonneg; lia. }
  destruct (Double.fraction m e) as [num den]. simpl in Hden.
  apply andb_true_iff in Hh. destruct Hh as [Hv Hs].
  apply Z.eqb_eq in Hv. apply Bool.eqb_prop in Hs. subst num s.
  rewrite int_to_string_sign. f_equal.
  replace den with (1 * den) at 2 by lia.
  unfold Double.general.
  rewrite (decimal_scale Double.precision (Z.abs k) 1 den) by lia.
  apply (general_whole (Z.abs k) Hk).
Qed.

(** X10: when three holds a whole number [k] with [0 < |k| < 1000000],
    [SayHello] shows it as the decimal text of [k], with no point and no
    exponent; 3, the value the default constructor stores, is one case. *)
Theorem SayHello_whole_three (h : HelloClass.t) (os : Ostream.t) (k : Z) :
  Whole.holds (HelloClass.three h) k = true ->
  0 < Z.abs k < 1000000 ->
  HelloClass.SayHello {| HelloClass.this := h; HelloClass.cout := os |}
  = Done (tt,
          {| HelloClass.this := h;
             HelloClass.cout :=
               {| Ostream.device :=
                    Ostream.written os
                    ++ ("Hello, from HelloClass with" ++ Text.newline ++ "one: ")
                    ++ Int.to_string (HelloClass.one h)
                    ++ ", two: "
                    ++ Int.to_string (HelloClass.two h)
                    ++ ", and three: "
                    ++ Int.to_string k
                    ++ Text.newline;
                  Ostream.buffer := "" |} |}).
Proof.
  intros Hh Hk. rewrite SayHello_run. unfold HelloClass.greeting.
  now rewrite (whole_to_string _ k Hh Hk).
Qed.

Lemma SayHello_whole_three_example :
  Whole.holds
    (HelloClass.three (HelloClass.mk 1 2 (Double.of_int (-42)) 4)) (-42) = true
  /\ 0 < Z.abs (-42) < 1000000
  /\ HelloClass.SayHello
       {| HelloClass.this := HelloClass.mk 1 2 (Double.of_int (-42)) 4;
          HelloClass.cout := Ostream.empty |}
     = Done (tt,
             {| HelloClass.this := HelloClass.mk 1 2 (Double.of_int (-42)) 4;
                HelloClass.cout :=
                  {| Ostream.device :=
                       Ostream.written Ostream.empty
                       ++ ("Hello, from HelloClass with" ++ Text.newline
                           ++ "one: ")
                       ++ Int.to_string
                            (HelloClass.one
                               (HelloClass.mk 1 2 (Double.of_int (-42)) 4))
                       ++ ", two: "
                       ++ Int.to_string
                            (HelloClass.two
                               (HelloClass.mk 1 2 (Double.of_int (-42)) 4))
                       ++ ", and three: "
                       ++ Int.to_string (-42)
                       ++ Text.newline;
                     Ostream.buffer := "" |} |}).
Proof.
  split; [vm_compute; reflexivity|]. split; [simpl; lia|].
  apply (SayHello_whole_three
           (HelloClass.mk 1 2 (Double.of_int (-42)) 4) Ostream.empty (-42)).
  - vm_compute. reflexivity.
  - simpl. lia.
Defined.
